(** * open_book.py: revealing a path in the file explorer

    A shallow embedding of [bookstore/src/open_book.py] and the properties
    of its single operation.  The script reads [WINDIR] from the process
    environment, joins ['explorer.exe'] beneath it, and hands one command
    string, built by an f-string around [sys.argv[1]], to
    [subprocess.Popen].

    The script is embedded over a [Host]: the process environment and the
    platform behind the library calls it makes.  A [str] is a [string],
    its characters in order.  Python exceptions are an
    outcome of the run, and every call of the process-creation primitive
    is logged, so that "no process was started" and "exactly one process
    was started" are statements about the log. *)

From Stdlib Require Import ZArith Ascii String List Bool Lia.
From stdpp Require Import base option list strings gmap.

(** ** Characters and strings *)

(** The double quote, code point 34. *)
Definition dquote : ascii := "034"%char.

Definition is_dquote (c : ascii) : bool := Ascii.eqb c dquote.

(** Characters of a Python [str], in order. *)
Abbreviation chars := list_ascii_of_string.

(** Number of double quotes in a string. *)
Fixpoint count_dquote (s : string) : nat :=
  match s with
  | EmptyString => 0
  | String c s' => (if is_dquote c then 1 else 0) + count_dquote s'
  end.

(** [s] holds no double quote. *)
Definition quote_free (s : string) : Prop := dquote ∉ chars s.

(** ** Exceptions, outcomes, effects *)

(** The exceptions the script can meet.  [OSError] carries the [errno] of
    a failed process creation; [FileNotFoundError] is its subclass for a
    missing executable. *)
Inductive exception : Type :=
  | TypeError
  | IndexError
  | FileNotFoundError
  | OSError (errno : Z).

(** Handle of a started child process. *)
Definition handle : Type := Z.

(** What a run does to its host.  The script itself only ever creates a
    process; the other kinds are what a process could do and what the
    frame properties exclude. *)
Inductive effect : Type :=
  | CreateProcessCall (cmd : string) (r : exception + handle)
  | WaitCall (child : handle) (status : Z)
  | FileWrite (path data : string)
  | NetworkIO (peer data : string).

Definition is_spawn (e : effect) : bool :=
  match e with
  | CreateProcessCall _ (inr _) => true
  | _ => false
  end.

Definition is_wait (e : effect) : bool :=
  match e with
  | WaitCall _ _ => true
  | _ => false
  end.

Definition is_io (e : effect) : bool :=
  match e with
  | FileWrite _ _ | NetworkIO _ _ => true
  | _ => false
  end.

(** How a piece of the script ends: it returns, it raises, or it never
    comes back from a blocking call. *)
Inductive outcome (A : Type) : Type :=
  | Done (a : A)
  | Raised (e : exception)
  | Blocked.
Arguments Done {A} a.
Arguments Raised {A} e.
Arguments Blocked {A}.

(** A computation threads the log of effects and ends in an outcome. *)
Definition Run (A : Type) : Type := list effect -> outcome A * list effect.

Definition ret {A} (a : A) : Run A := fun log => (Done a, log).

Definition raise {A} (e : exception) : Run A := fun log => (Raised e, log).

Definition bind {A B} (k : A -> Run B) (m : Run A) : Run B :=
  fun log =>
    match m log with
    | (Done a, log') => k a log'
    | (Raised e, log') => (Raised e, log')
    | (Blocked, log') => (Blocked, log')
    end.

#[global] Instance Run_ret : MRet Run := @ret.
#[global] Instance Run_bind : MBind Run := @bind.

(** ** The host *)

(** The process environment and the platform behind the library calls.
    [path_join] is [os.path.join] on two [str] arguments ([ntpath] or
    [posixpath], whichever the platform has); [is_file] tells which paths
    exist; [CreateProcess] is the operating system's answer to a command
    line; [child_exit] is the exit status of a started child, [None] for
    one that never exits. *)
Record Host : Type := {
  environ : gmap string string;
  path_join : string -> string -> string;
  is_file : string -> bool;
  CreateProcess : string -> exception + handle;
  child_exit : handle -> option Z
}.

(** ** The library calls *)

Module os.

(** [os.getenv(key)]: the value, or Python's [None]. *)
Definition getenv (h : Host) (key : string) : option string :=
  environ h !! key.

(** [os.path.join(a, p)].  [os.fspath] rejects [None] with [TypeError]
    before anything is joined. *)
Definition path_join (h : Host) (a : option string) (p : string) : Run string :=
  match a with
  | None => raise TypeError
  | Some a => ret (path_join h a p)
  end.

End os.

Module subprocess.

(** [subprocess.Popen(cmd)] with a string: the command line goes to the
    operating system as it is.  A refusal is raised; otherwise the
    handle is returned at once, the child running on its own. *)
Definition Popen (h : Host) (cmd : string) : Run handle :=
  fun log =>
    match CreateProcess h cmd with
    | inl e => (Raised e, log ++ [CreateProcessCall cmd (inl e)])
    | inr c => (Done c, log ++ [CreateProcessCall cmd (inr c)])
    end.

(** [Popen.wait()]: blocks until the child exits.  The script has no
    call of it. *)
Definition wait (h : Host) (c : handle) : Run Z :=
  fun log =>
    match child_exit h c with
    | Some st => (Done st, log ++ [WaitCall c st])
    | None => (Blocked, log)
    end.

End subprocess.

(** [argv[i]], raising [IndexError] out of range. *)
Definition index (argv : list string) (i : nat) : Run string :=
  match argv !! i with
  | Some a => ret a
  | None => raise IndexError
  end.

(** ** The script *)

(** Line 9: [FILEBROWSER_PATH = os.path.join(os.getenv('WINDIR'), 'explorer.exe')]. *)
Definition FILEBROWSER_PATH (h : Host) : Run string :=
  os.path_join h (os.getenv h "WINDIR") "explorer.exe".

(** The f-string of line 10,
    [f'{FILEBROWSER_PATH} /select,<dq>{sys.argv[1]}<dq>'] with [<dq>] the
    double quote: its pieces appended in order. *)
Definition command_line (filebrowser_path arg : string) : string :=
  filebrowser_path +:+ " /select," +:+ String dquote (arg +:+ String dquote EmptyString).

(** The body of the [if __name__ == '__main__':] block. *)
Definition main_block (h : Host) (argv : list string) : Run unit :=
  fb ← FILEBROWSER_PATH h;
  arg ← index argv 1;
  _ ← subprocess.Popen h (command_line fb arg);
  mret tt.

(** The module: the block runs only when the file is the program. *)
Definition open_book (name : string) (h : Host) (argv : list string) : Run unit :=
  if String.eqb name "__main__" then main_block h argv else ret tt.

(** One invocation of the utility, from an empty log. *)
Definition run (h : Host) (argv : list string) : outcome unit * list effect :=
  open_book "__main__" h argv [].

(** The selection instruction: what follows the executable and the
    separating space in the command line. *)
Definition launch_argument (p : string) : string :=
  "/select," +:+ String dquote (p +:+ String dquote EmptyString).

(** ** Reading a command line back *)

(** Blanks separate the tokens of a command line. *)
Definition is_blank (c : ascii) : bool :=
  Ascii.eqb c " " || Ascii.eqb c "009".

Definition flush (cur : string) : list string :=
  match cur with
  | EmptyString => []
  | _ => [cur]
  end.

(** Quote-aware splitting: a double quote switches quoting on or off and
    stays in its token; a blank ends the token only outside quotes; every
    other character, the backslash too, stands for itself.  [cur] is the
    token read so far. *)
Fixpoint tokens_from (inq : bool) (cur : string) (s : string) : list string :=
  match s with
  | EmptyString => flush cur
  | String c s' =>
      if is_dquote c then tokens_from (negb inq) (cur +:+ String c EmptyString) s'
      else if is_blank c && negb inq then flush cur ++ tokens_from false EmptyString s'
      else tokens_from inq (cur +:+ String c EmptyString) s'
  end.

Definition tokenize (s : string) : list string := tokens_from false EmptyString s.

(** [s] without the prefix [pre], when it has it. *)
Fixpoint strip_prefix (pre s : string) : option string :=
  match pre, s with
  | EmptyString, _ => Some s
  | String a pre', String b s' =>
      if Ascii.eqb a b then strip_prefix pre' s' else None
  | String _ _, EmptyString => None
  end.

(** The text before the first double quote, and the text from it on. *)
Fixpoint until_dquote (s : string) : string * string :=
  match s with
  | EmptyString => (EmptyString, EmptyString)
  | String c s' =>
      if is_dquote c then (EmptyString, s)
      else let '(a, b) := until_dquote s' in (String c a, b)
  end.

(** The path a selection instruction names: the text between the quote
    that follows [/select,] and the next quote, which must end the token. *)
Definition selected_path (tok : string) : option string :=
  rest ← strip_prefix ("/select," +:+ String dquote EmptyString) tok;
  let '(p, tl) := until_dquote rest in
  if String.eqb tl (String dquote EmptyString) then Some p else None.

(** ** Hosts to run on *)

Definition is_sep (c : ascii) : bool := Ascii.eqb c "\" || Ascii.eqb c "/".

(** [ntpath.splitdrive] for drive-letter paths; UNC and device roots
    are outside it. *)
Definition splitdrive (p : string) : string * string :=
  match p with
  | String a (String c rest) =>
      if Ascii.eqb c ":" then (String a (String c EmptyString), rest) else (EmptyString, p)
  | _ => (EmptyString, p)
  end.

Fixpoint last_char (s : string) : option ascii :=
  match s with
  | EmptyString => None
  | String c EmptyString => Some c
  | String _ s' => last_char s'
  end.

(** [ntpath.join(path, p)] for a relative [p] without a drive, on
    drive-letter paths: a backslash goes between the two unless the
    directory part of [path] is empty or already ends in a separator. *)
Definition ntpath_join (path p : string) : string :=
  let '(drive, rest) := splitdrive path in
  match last_char rest with
  | None => drive +:+ p
  | Some c => if is_sep c then drive +:+ rest +:+ p
              else drive +:+ rest +:+ "\" +:+ p
  end.

(** A command line without quotes around its program starts when one of
    [files], followed by a blank, begins it. *)
Definition starts (files : list string) (cmd : string) : bool :=
  existsb (fun f => String.prefix (f +:+ " ") cmd) files.

(** A Windows host with the given environment and executables. *)
Definition windows (env : gmap string string) (files : list string) : Host :=
  {| environ := env;
     path_join := ntpath_join;
     is_file := fun f => existsb (String.eqb f) files;
     CreateProcess := fun cmd =>
       if starts files cmd then inr 4242%Z else inl FileNotFoundError;
     child_exit := fun _ => None |}.

Definition explorer_host : Host :=
  windows {[ "WINDIR" := "C:\Windows" ]} ["C:\Windows\explorer.exe"].

(** The same host with another view of the child's fate. *)
Definition with_child_exit (h : Host) (f : handle -> option Z) : Host :=
  {| environ := environ h;
     path_join := path_join h;
     is_file := is_file h;
     CreateProcess := CreateProcess h;
     child_exit := f |}.


(** The path with embedded spaces used as the running example. *)
Definition spaced_path : string := "C:\Users\me\My Documents\file.txt".

(** A path with two double quotes in it: [a<dq>b<dq>c]. *)
Definition twice_quoted_path : string :=
  "a" +:+ String dquote ("b" +:+ String dquote "c").


(** A host without [WINDIR]. *)
Definition unconfigured_host : Host :=
  windows {[ "SystemRoot" := "C:\Windows" ]} ["C:\Windows\explorer.exe"].

(** A host that agrees with [explorer_host] on [WINDIR] only. *)
Definition crowded_host : Host :=
  windows (<[ "PATH" := "D:\bin" ]> (<[ "SystemRoot" := "D:\Other" ]>
             {[ "WINDIR" := "C:\Windows" ]}))
          ["D:\bin\explorer.exe"].

(** A string without blanks and without double quotes: read outside
    quotes, it stays within one token. *)
Fixpoint plain (s : string) : bool :=
  match s with
  | EmptyString => true
  | String c s' => negb (is_dquote c) && negb (is_blank c) && plain s'
  end.

(** A host that shares with [explorer_host] the value of [WINDIR], the
    join and the operating system's answers, and nothing else. *)
Definition noisy_host : Host :=
  {| environ := <[ "PATH" := "D:\bin" ]> (<[ "TEMP" := "D:\tmp" ]>
                  {[ "WINDIR" := "C:\Windows" ]});
     path_join := ntpath_join;
     is_file := fun _ => true;
     CreateProcess := CreateProcess explorer_host;
     child_exit := fun _ => Some 0%Z |}.

(** A path that closes the quote and goes on after a blank:
    [C:\a<dq> /e,C:\b]. *)
Definition injecting_path : string :=
  "C:\a" +:+ String dquote (String " " "/e,C:\b").

(** * Properties *)

(** ** Strings *)

(** Appending to a string that starts with known characters computes. *)
#[local] Arguments String.append !_ _ / : simpl nomatch.

Lemma append_assoc (a b c : string) : (a +:+ b) +:+ c = a +:+ (b +:+ c).
Proof. induction a as [|x a IH]; simpl; [reflexivity | by rewrite IH]. Qed.

Lemma append_nil_r (a : string) : a +:+ EmptyString = a.
Proof. induction a as [|x a IH]; simpl; [reflexivity | by rewrite IH]. Qed.

Lemma is_dquote_false (c : ascii) : is_dquote c = false <-> c <> dquote.
Proof. unfold is_dquote. apply Ascii.eqb_neq. Qed.

Lemma quote_free_cons (c : ascii) (s : string) :
  quote_free (String c s) <-> is_dquote c = false /\ quote_free s.
Proof.
  unfold quote_free. simpl. rewrite not_elem_of_cons, is_dquote_false.
  split; intros [H1 H2]; split; auto.
Qed.

Lemma count_dquote_append (a b : string) :
  count_dquote (a +:+ b) = count_dquote a + count_dquote b.
Proof. induction a as [|x a IH]; simpl; [reflexivity | rewrite IH; lia]. Qed.

Lemma count_dquote_free (s : string) : quote_free s <-> count_dquote s = 0.
Proof.
  induction s as [|c s IH]; simpl.
  - split; [reflexivity | intros _; unfold quote_free; simpl; apply not_elem_of_nil].
  - rewrite quote_free_cons, IH. destruct (is_dquote c); simpl; [|tauto].
    split; [intros [? _]|]; discriminate.
Qed.

(** The f-string is the executable, one space, and the selection
    instruction. *)
Lemma command_line_split (fb p : string) :
  command_line fb p = fb +:+ " " +:+ launch_argument p.
Proof. reflexivity. Qed.

Lemma count_dquote_launch_argument (p : string) :
  count_dquote (launch_argument p) = 2 + count_dquote p.
Proof.
  unfold launch_argument. simpl. rewrite count_dquote_append. simpl. lia.
Qed.

(** ** Reading back *)

Lemma tokens_from_quoted (p : string) :
  quote_free p ->
  forall cur rest,
    tokens_from true cur (p +:+ rest) = tokens_from true (cur +:+ p) rest.
Proof.
  induction p as [|c p IH]; intros Hq cur rest; simpl.
  - by rewrite append_nil_r.
  - apply quote_free_cons in Hq as [Hc Hp]. rewrite Hc. simpl.
    rewrite Bool.andb_false_r, (IH Hp), append_assoc. reflexivity.
Qed.

(** A selection instruction around a quote-free path is one token. *)
Lemma tokenize_launch_argument (p : string) :
  quote_free p -> tokenize (launch_argument p) = [launch_argument p].
Proof.
  intros Hq. unfold tokenize, launch_argument. cbn -[tokens_from_quoted].
  change (is_dquote dquote) with true. cbn.
  rewrite (tokens_from_quoted p Hq). cbn.
  change (is_dquote dquote) with true. cbn.
  reflexivity.
Qed.

Lemma until_dquote_free (p rest : string) :
  quote_free p ->
  until_dquote (p +:+ String dquote rest) = (p, String dquote rest).
Proof.
  induction p as [|c p IH]; intros Hq; simpl.
  - reflexivity.
  - apply quote_free_cons in Hq as [Hc Hp]. rewrite Hc, (IH Hp). reflexivity.
Qed.

Lemma until_dquote_fst_free (s : string) : quote_free (until_dquote s).1.
Proof.
  induction s as [|c s IH]; simpl.
  - unfold quote_free. simpl. apply not_elem_of_nil.
  - destruct (is_dquote c) eqn:Hc; simpl.
    + unfold quote_free. simpl. apply not_elem_of_nil.
    + destruct (until_dquote s) as [a b]. simpl in *.
      apply quote_free_cons. split; assumption.
Qed.

Lemma selected_path_launch_argument (p : string) :
  quote_free p -> selected_path (launch_argument p) = Some p.
Proof.
  intros Hq. unfold selected_path, launch_argument. cbn.
  rewrite (until_dquote_free p EmptyString Hq). reflexivity.
Qed.

(** What is read back is never a path with a quote in it. *)
Lemma selected_path_quote_free (tok p : string) :
  selected_path tok = Some p -> quote_free p.
Proof.
  unfold selected_path. destruct (strip_prefix _ tok) as [rest|]; simpl; [|discriminate].
  pose proof (until_dquote_fst_free rest) as Hf.
  destruct (until_dquote rest) as [a b]. simpl in Hf.
  destruct (String.eqb b _); [|discriminate]. intros [= <-]. exact Hf.
Qed.

(** ** The run, case by case *)

Section RunCases.

Context (h : Host) (argv : list string).

Lemma FILEBROWSER_PATH_eq (log : list effect) :
  FILEBROWSER_PATH h log =
  match environ h !! "WINDIR" with
  | Some d => (Done (path_join h d "explorer.exe"), log)
  | None => (Raised TypeError, log)
  end.
Proof.
  unfold FILEBROWSER_PATH, os.getenv, os.path_join.
  destruct (environ h !! "WINDIR"); reflexivity.
Qed.

(** The run is decided by three things, in this order: [WINDIR],
    [argv[1]], and the operating system's answer to the command line. *)
Lemma run_eq :
  run h argv =
  match environ h !! "WINDIR" with
  | None => (Raised TypeError, [])
  | Some d =>
      match argv !! 1 with
      | None => (Raised IndexError, [])
      | Some p =>
          let cmd := command_line (path_join h d "explorer.exe") p in
          match CreateProcess h cmd with
          | inl e => (Raised e, [CreateProcessCall cmd (inl e)])
          | inr c => (Done tt, [CreateProcessCall cmd (inr c)])
          end
      end
  end.
Proof.
  unfold run. change (open_book "__main__" h argv) with (main_block h argv).
  unfold main_block, mbind, Run_bind, bind. rewrite FILEBROWSER_PATH_eq.
  destruct (environ h !! "WINDIR") as [d|]; [|reflexivity].
  unfold index. destruct (argv !! 1) as [p|]; [|reflexivity].
  unfold subprocess.Popen. cbn.
  destruct (CreateProcess h _); reflexivity.
Qed.

Context (d p : string).
Hypothesis windir_set : environ h !! "WINDIR" = Some d.
Hypothesis argument_given : argv !! 1 = Some p.

(** A refusal of the operating system comes out of the run as it is. *)
Lemma run_refused (e : exception) :
  CreateProcess h (command_line (path_join h d "explorer.exe") p) = inl e ->
  run h argv =
  (Raised e, [CreateProcessCall (command_line (path_join h d "explorer.exe") p) (inl e)]).
Proof.
  intros He. rewrite run_eq, windir_set, argument_given. cbv zeta. by rewrite He.
Qed.

Lemma run_started (c : handle) :
  CreateProcess h (command_line (path_join h d "explorer.exe") p) = inr c ->
  run h argv =
  (Done tt, [CreateProcessCall (command_line (path_join h d "explorer.exe") p) (inr c)]).
Proof.
  intros He. rewrite run_eq, windir_set, argument_given. cbv zeta. by rewrite He.
Qed.

End RunCases.

(** Splits a goal about [run h argv] along the cases of [run_eq]. *)
Ltac run_cases h argv :=
  rewrite ?run_eq;
  destruct (environ h !! "WINDIR") as [?d|];
  [ destruct (argv !! 1) as [?p|];
    [ cbv zeta; destruct (CreateProcess h _) as [?e|?c] eqn:?Hcp | ] | ].

(** Imported rather than run, the module does nothing. *)
Lemma open_book_imported (h : Host) (argv : list string) (log : list effect) :
  open_book "open_book" h argv log = (Done tt, log).
Proof. reflexivity. Qed.

(** ** The launch argument *)

(** C1: for a path [p] without a double quote, the command line handed to
    process creation is the executable, one space and the token
    [/select,<dq>p<dq>]: [p] stands unchanged between the token's only
    two double quotes, the token reads back as [p], and it is one token. *)
Theorem launch_argument_verbatim (h : Host) (argv : list string) (d p : string) :
  environ h !! "WINDIR" = Some d ->
  argv !! 1 = Some p ->
  quote_free p ->
  (run h argv).2 =
    [CreateProcessCall
       (path_join h d "explorer.exe" +:+ " " +:+ launch_argument p)
       (CreateProcess h (path_join h d "explorer.exe" +:+ " " +:+ launch_argument p))] /\
  launch_argument p = "/select," +:+ String dquote EmptyString +:+ p +:+ String dquote EmptyString /\
  count_dquote (launch_argument p) = 2 /\
  selected_path (launch_argument p) = Some p /\
  tokenize (launch_argument p) = [launch_argument p].
Proof.
  intros Hd Hp Hq. repeat split.
  - rewrite run_eq, Hd, Hp. cbv zeta. rewrite command_line_split.
    destruct (CreateProcess h _); reflexivity.
  - rewrite count_dquote_launch_argument.
    apply count_dquote_free in Hq. rewrite Hq. reflexivity.
  - apply selected_path_launch_argument, Hq.
  - apply tokenize_launch_argument, Hq.
Qed.

Lemma launch_argument_verbatim_witness :
  (run explorer_host ["open_book.py"; "C:\books\dune.epub"]).2 =
    [CreateProcessCall
       ("C:\Windows\explorer.exe" +:+ " " +:+ launch_argument "C:\books\dune.epub")
       (inr 4242%Z)] /\
  selected_path (launch_argument "C:\books\dune.epub") = Some "C:\books\dune.epub".
Proof.
  destruct (launch_argument_verbatim explorer_host
              ["open_book.py"; "C:\books\dune.epub"] "C:\Windows" "C:\books\dune.epub")
    as (Hlog & _ & _ & Hsel & _).
  - reflexivity.
  - reflexivity.
  - unfold quote_free. compute_done.
  - split; [exact Hlog | exact Hsel].
Defined.

(** C6: for the path [C:\Users\me\My Documents\file.txt] the argument is
    [/select,<dq>C:\Users\me\My Documents\file.txt<dq>]; quote-aware
    splitting leaves it whole, and splits the command line of a run into
    the executable and this one argument. *)
Theorem spaced_path_single_token :
  launch_argument spaced_path =
    "/select," +:+ String dquote EmptyString +:+
    "C:\Users\me\My Documents\file.txt" +:+ String dquote EmptyString /\
  tokenize (launch_argument spaced_path) = [launch_argument spaced_path] /\
  (run explorer_host ["open_book.py"; spaced_path]).2 =
    [CreateProcessCall
       ("C:\Windows\explorer.exe " +:+ launch_argument spaced_path) (inr 4242%Z)] /\
  tokenize ("C:\Windows\explorer.exe " +:+ launch_argument spaced_path) =
    ["C:\Windows\explorer.exe"; launch_argument spaced_path].
Proof. repeat split; vm_compute; reflexivity. Qed.

(** ** Failures *)

(** C2: with [WINDIR] unset the run raises [TypeError] and its log is
    empty: no process creation was attempted, whatever the arguments. *)
Theorem windir_unset_fails_first (h : Host) (argv : list string) :
  environ h !! "WINDIR" = None ->
  run h argv = (Raised TypeError, []).
Proof. intros Hd. rewrite run_eq, Hd. reflexivity. Qed.

Lemma windir_unset_fails_first_witness :
  run unconfigured_host ["open_book.py"; "C:\books\dune.epub"] = (Raised TypeError, []).
Proof.
  apply (windir_unset_fails_first unconfigured_host
           ["open_book.py"; "C:\books\dune.epub"]).
  reflexivity.
Defined.

(** C3, as stated: every run without [argv[1]] ends in the missing-argument
    fault [IndexError].  It does not: without [WINDIR] line 9 raises
    [TypeError] before [sys.argv[1]] is read. *)
Lemma zero_arguments_not_always_IndexError :
  ~ (forall (h : Host) (argv : list string),
       argv !! 1 = None -> (run h argv).1 = Raised IndexError).
Proof.
  intros H. specialize (H unconfigured_host ["open_book.py"] eq_refl).
  vm_compute in H. discriminate H.
Qed.

(** C3, amended: a run without [argv[1]] fails with an empty log, so no
    process creation is attempted; the fault is [IndexError] when
    [WINDIR] is set and [TypeError] when it is not. *)
Theorem zero_arguments_fail (h : Host) (argv : list string) :
  argv !! 1 = None ->
  run h argv =
  (Raised (match environ h !! "WINDIR" with
           | Some _ => IndexError
           | None => TypeError
           end), []).
Proof.
  intros Hp. rewrite run_eq, Hp. destruct (environ h !! "WINDIR"); reflexivity.
Qed.

Lemma zero_arguments_fail_witness :
  run explorer_host ["open_book.py"] = (Raised IndexError, []).
Proof.
  apply (zero_arguments_fail explorer_host ["open_book.py"]). reflexivity.
Defined.




(** ** The child process *)

(** Waiting for a child that never exits does not come back: [Blocked]
    is what a waiting script would end in. *)
Lemma wait_blocks (h : Host) (c : handle) (log : list effect) :
  child_exit h c = None -> subprocess.wait h c log = (Blocked, log).
Proof. intros Hc. unfold subprocess.wait. rewrite Hc. reflexivity. Qed.

Lemma wait_observes (h : Host) (c : handle) (st : Z) (log : list effect) :
  child_exit h c = Some st ->
  subprocess.wait h c log = (Done st, log ++ [WaitCall c st]).
Proof. intros Hc. unfold subprocess.wait. rewrite Hc. reflexivity. Qed.

(** C5: no run blocks and no run waits for a child; the run is the same
    whatever the child's fate [f] (an exit status, or never exiting); and
    the creation call is the only and last entry of the log, the run
    being [Done] as soon as that call has returned a handle. *)
Theorem never_waits_for_child (h : Host) (argv : list string)
    (f : handle -> option Z) :
  (run h argv).1 <> Blocked /\
  List.filter is_wait (run h argv).2 = [] /\
  run (with_child_exit h f) argv = run h argv /\
  match (run h argv).2 with
  | [] => (run h argv).1 <> Done tt
  | [CreateProcessCall _ (inr _)] => (run h argv).1 = Done tt
  | [CreateProcessCall _ (inl e)] => (run h argv).1 = Raised e
  | _ => False
  end.
Proof.
  split; [|split; [|split]].
  - run_cases h argv; discriminate.
  - run_cases h argv; reflexivity.
  - rewrite !run_eq. reflexivity.
  - run_cases h argv; first [reflexivity | discriminate].
Qed.

(** ** Locating the executable *)

(** C7: the executable path is [path_join] of the value of [WINDIR] and
    ['explorer.exe'], found without any effect, with [TypeError] and no
    fallback when [WINDIR] is unset; two hosts with the same [WINDIR]
    compute the same path, whatever else their environments and file
    systems hold. *)
Theorem filebrowser_path_from_windir (h h' : Host) (log : list effect) :
  path_join h = path_join h' ->
  environ h !! "WINDIR" = environ h' !! "WINDIR" ->
  FILEBROWSER_PATH h log = FILEBROWSER_PATH h' log /\
  FILEBROWSER_PATH h log =
    match environ h !! "WINDIR" with
    | Some d => (Done (path_join h d "explorer.exe"), log)
    | None => (Raised TypeError, log)
    end.
Proof.
  intros Hj He. rewrite !FILEBROWSER_PATH_eq, <- He, <- Hj. split; reflexivity.
Qed.

Lemma filebrowser_path_from_windir_witness :
  FILEBROWSER_PATH explorer_host [] = FILEBROWSER_PATH crowded_host [] /\
  FILEBROWSER_PATH explorer_host [] = (Done "C:\Windows\explorer.exe", []).
Proof.
  apply (filebrowser_path_from_windir explorer_host crowded_host []).
  - reflexivity.
  - vm_compute. reflexivity.
Defined.

(** ** Effects of a run *)

(** C8: a run that ends well has exactly one entry in its log, the
    creation of one process by the operating system; the log holds no
    file write and no network exchange. *)
Theorem successful_run_only_spawns (h : Host) (argv : list string) :
  (run h argv).1 = Done tt ->
  (exists cmd c, (run h argv).2 = [CreateProcessCall cmd (inr c)] /\
                 CreateProcess h cmd = inr c) /\
  length (List.filter is_spawn (run h argv).2) = 1 /\
  List.filter is_io (run h argv).2 = [].
Proof.
  run_cases h argv; try discriminate.
  intros _. repeat split. eexists _, c. split; [reflexivity | assumption].
Qed.

Lemma successful_run_only_spawns_witness :
  length (List.filter is_spawn
            (run explorer_host ["open_book.py"; "C:\books\dune.epub"]).2) = 1 /\
  List.filter is_io (run explorer_host ["open_book.py"; "C:\books\dune.epub"]).2 = [].
Proof.
  refine (proj2 (successful_run_only_spawns explorer_host
                   ["open_book.py"; "C:\books\dune.epub"] _)).
  reflexivity.
Defined.

(** C9: two invocations on the same host whose [argv[1]] agree run
    alike, outcome and log, whatever [argv[0]] and [argv[2:]] are; with
    [argv[1]] present the run is that of the two-element argument list,
    so extra arguments raise nothing. *)
Theorem extra_arguments_ignored (h : Host) (argv argv' : list string) :
  argv !! 1 = argv' !! 1 ->
  run h argv = run h argv' /\
  match argv !! 1 with
  | Some p => run h argv = run h ["open_book.py"; p]
  | None => True
  end.
Proof.
  intros Heq. split.
  - rewrite !run_eq, Heq. reflexivity.
  - destruct (argv !! 1) as [p|] eqn:Hp; [|exact I].
    rewrite !run_eq, Hp. reflexivity.
Qed.

Lemma extra_arguments_ignored_witness :
  run explorer_host ["open_book.py"; "C:\books\dune.epub"; "--verbose"; "more"] =
  run explorer_host ["other.py"; "C:\books\dune.epub"].
Proof.
  refine (proj1 (extra_arguments_ignored explorer_host
                   ["open_book.py"; "C:\books\dune.epub"; "--verbose"; "more"]
                   ["other.py"; "C:\books\dune.epub"] _)).
  reflexivity.
Defined.

(** ** Paths with double quotes *)

(** C10, as stated: every path with a double quote in it gives an
    argument with an odd number of double quotes.  A path with two of
    them gives four. *)
Lemma quoted_path_even_quotes :
  ~ (forall p : string,
       dquote ∈ chars p -> Nat.odd (count_dquote (launch_argument p)) = true).
Proof.
  intros H. specialize (H twice_quoted_path).
  assert (Hin : dquote ∈ chars twice_quoted_path).
  { compute_done. }
  specialize (H Hin). vm_compute in H. discriminate H.
Qed.

(** C10, amended: a path with a double quote in it is neither escaped
    nor rejected.  The one creation call of the run gets the executable,
    a space and [/select,<dq>p<dq>] with [p] as it is, and the run ends
    as that call does; the argument holds the quotes of [p] and two more,
    so at least three, an odd number exactly when [p] holds an odd
    number, and it no longer reads back as [p]. *)
Theorem quoted_path_embedded_verbatim (h : Host) (argv : list string) (d p : string) :
  environ h !! "WINDIR" = Some d ->
  argv !! 1 = Some p ->
  dquote ∈ chars p ->
  run h argv =
    (match CreateProcess h (path_join h d "explorer.exe" +:+ " " +:+ launch_argument p) with
     | inr _ => Done tt
     | inl e => Raised e
     end,
     [CreateProcessCall
        (path_join h d "explorer.exe" +:+ " " +:+ launch_argument p)
        (CreateProcess h (path_join h d "explorer.exe" +:+ " " +:+ launch_argument p))]) /\
  launch_argument p = "/select," +:+ String dquote EmptyString +:+ p +:+ String dquote EmptyString /\
  count_dquote (launch_argument p) = 2 + count_dquote p /\
  3 <= count_dquote (launch_argument p) /\
  Nat.odd (count_dquote (launch_argument p)) = Nat.odd (count_dquote p) /\
  selected_path (launch_argument p) <> Some p.
Proof.
  intros Hd Hp Hin.
  assert (Hpos : count_dquote p <> 0).
  { intros Hz. apply count_dquote_free in Hz. exact (Hz Hin). }
  repeat split.
  - rewrite run_eq, Hd, Hp. cbv zeta. rewrite command_line_split.
    destruct (CreateProcess h _); reflexivity.
  - apply count_dquote_launch_argument.
  - rewrite count_dquote_launch_argument. lia.
  - rewrite count_dquote_launch_argument. reflexivity.
  - intros Hsel. apply selected_path_quote_free in Hsel. exact (Hsel Hin).
Qed.

Lemma quoted_path_embedded_verbatim_witness :
  count_dquote (launch_argument twice_quoted_path) = 2 + 2 /\
  (run explorer_host ["open_book.py"; twice_quoted_path]).1 = Done tt.
Proof.
  destruct (quoted_path_embedded_verbatim explorer_host
              ["open_book.py"; twice_quoted_path] "C:\Windows" twice_quoted_path)
    as (Hrun & _ & Hcount & _).
  - reflexivity.
  - reflexivity.
  - compute_done.
  - split; [exact Hcount | rewrite Hrun; reflexivity].
Defined.

(** * Further properties of the script *)

(** ** Strings *)

Lemma append_last_inj (a b : string) (x : ascii) :
  a +:+ String x EmptyString = b +:+ String x EmptyString -> a = b.
Proof.
  revert b. induction a as [|c a IH]; intros [|c' b] H; simpl in H.
  - reflexivity.
  - injection H as _ H. destruct b; discriminate H.
  - injection H as _ H. destruct a; discriminate H.
  - injection H as -> H. f_equal. apply IH, H.
Qed.

Lemma command_line_inj (fb p p' : string) :
  command_line fb p = command_line fb p' -> p = p'.
Proof.
  unfold command_line. intros H.
  apply (inj (String.append fb)) in H. simpl in H.
  injection H as H. apply append_last_inj in H. exact H.
Qed.

Lemma plain_cons (c : ascii) (s : string) :
  plain (String c s) = true ->
  is_dquote c = false /\ is_blank c = false /\ plain s = true.
Proof.
  simpl. rewrite !Bool.andb_true_iff, !Bool.negb_true_iff. tauto.
Qed.

Lemma tokens_from_plain (s : string) :
  plain s = true ->
  forall cur rest,
    tokens_from false cur (s +:+ rest) = tokens_from false (cur +:+ s) rest.
Proof.
  induction s as [|c s IH]; intros Hs cur rest.
  - simpl. by rewrite append_nil_r.
  - apply plain_cons in Hs as (Hq & Hb & Hs). simpl.
    rewrite Hq, Hb. simpl. rewrite (IH Hs), append_assoc. reflexivity.
Qed.

Lemma tokens_from_blank (cur rest : string) :
  tokens_from false cur (String " " rest) = flush cur ++ tokenize rest.
Proof. reflexivity. Qed.

Lemma flush_nonempty (s : string) : s <> EmptyString -> flush s = [s].
Proof. destruct s; [congruence | reflexivity]. Qed.

(** ** How a run ends *)

(** X2: a run ends well exactly when [WINDIR] is set, [argv[1]] is there
    and the operating system starts the command line built from them. *)
Theorem run_succeeds_iff (h : Host) (argv : list string) :
  (run h argv).1 = Done tt <->
  exists d p c,
    environ h !! "WINDIR" = Some d /\
    argv !! 1 = Some p /\
    CreateProcess h (command_line (path_join h d "explorer.exe") p) = inr c.
Proof.
  split.
  - run_cases h argv; try discriminate. intros _. eauto 6.
  - intros (d & p & c & Hd & Hp & Hc).
    rewrite (run_started h argv d p Hd Hp c Hc). reflexivity.
Qed.

(** X3: a run raises [e] in exactly three ways, tried in this order:
    [WINDIR] is unset and [e] is [TypeError]; [WINDIR] is set, [argv[1]]
    is missing and [e] is [IndexError]; both are there and [e] is the
    refusal of the operating system. *)
Theorem run_fault_taxonomy (h : Host) (argv : list string) (e : exception) :
  (run h argv).1 = Raised e <->
  (environ h !! "WINDIR" = None /\ e = TypeError) \/
  (exists d, environ h !! "WINDIR" = Some d /\ argv !! 1 = None /\ e = IndexError) \/
  (exists d p,
     environ h !! "WINDIR" = Some d /\
     argv !! 1 = Some p /\
     CreateProcess h (command_line (path_join h d "explorer.exe") p) = inl e).
Proof.
  split.
  - run_cases h argv; simpl; intros H; try discriminate H.
    + injection H as <-. right; right. eauto 6.
    + injection H as <-. right; left. eauto.
    + injection H as <-. left. auto.
  - intros [[Hd ->] | [(d & Hd & Hp & ->) | (d & p & Hd & Hp & Hc)]].
    + rewrite run_eq, Hd. reflexivity.
    + rewrite run_eq, Hd, Hp. reflexivity.
    + rewrite (run_refused h argv d p Hd Hp e Hc). reflexivity.
Qed.

(** X4: process creation is attempted exactly when [WINDIR] is set and
    [argv[1]] is there, whatever the path is (empty, missing on disk, any
    characters) and whatever the operating system answers; and it is
    attempted at most once. *)
Theorem creation_attempted_iff (h : Host) (argv : list string) :
  ((run h argv).2 <> [] <->
   is_Some (environ h !! "WINDIR") /\ is_Some (argv !! 1)) /\
  length (run h argv).2 <= 1.
Proof.
  run_cases h argv; simpl; (split; [split|lia]).
  - intros _. split; eauto.
  - intros _. discriminate.
  - intros _. split; eauto.
  - intros _. discriminate.
  - intros H. congruence.
  - intros [_ [? H]]. discriminate H.
  - intros H. congruence.
  - intros [[? H] _]. discriminate H.
Qed.

(** A run started on a log that already has entries leaves them in
    place and in order, and adds its own at the end. *)
Lemma run_extends_log (h : Host) (argv : list string) (log : list effect) :
  open_book "__main__" h argv log = ((run h argv).1, log ++ (run h argv).2).
Proof.
  rewrite run_eq.
  change (open_book "__main__" h argv) with (main_block h argv).
  unfold main_block, mbind, Run_bind, bind. rewrite FILEBROWSER_PATH_eq.
  destruct (environ h !! "WINDIR") as [d|]; [|by rewrite app_nil_r].
  unfold index. destruct (argv !! 1) as [p|]; [|by rewrite app_nil_r].
  unfold subprocess.Popen. cbn.
  destruct (CreateProcess h _); reflexivity.
Qed.

(** ** What a run depends on *)

(** X5: of the environment a run reads [WINDIR] and nothing more: on two
    hosts with the same join and the same operating-system answers that
    agree on [WINDIR], every invocation runs alike, whatever their other
    variables and their file systems are. *)
Theorem run_reads_only_WINDIR (h h' : Host) (argv : list string) :
  path_join h = path_join h' ->
  CreateProcess h = CreateProcess h' ->
  environ h !! "WINDIR" = environ h' !! "WINDIR" ->
  run h argv = run h' argv.
Proof.
  intros Hj Hc He. rewrite !run_eq, <- He, <- Hj, <- Hc. reflexivity.
Qed.

Lemma run_reads_only_WINDIR_witness :
  run explorer_host ["open_book.py"; spaced_path] =
  run noisy_host ["open_book.py"; spaced_path].
Proof.
  apply (run_reads_only_WINDIR explorer_host noisy_host
           ["open_book.py"; spaced_path]).
  - reflexivity.
  - reflexivity.
  - vm_compute. reflexivity.
Defined.

(** X6: on one host with [WINDIR] set, two invocations that hand the
    same command line to process creation were given the same
    [argv[1]]: distinct paths never meet in one command line. *)
Theorem distinct_paths_distinct_commands (h : Host) (argv argv' : list string)
    (d p p' : string) :
  environ h !! "WINDIR" = Some d ->
  argv !! 1 = Some p ->
  argv' !! 1 = Some p' ->
  (run h argv).2 = (run h argv').2 ->
  p = p'.
Proof.
  intros Hd Hp Hp'. rewrite !run_eq, Hd, Hp, Hp'. cbv zeta. intros H.
  apply (command_line_inj (path_join h d "explorer.exe")).
  destruct (CreateProcess h (command_line _ p)),
           (CreateProcess h (command_line _ p')); simpl in H; congruence.
Qed.

Lemma distinct_paths_distinct_commands_witness :
  spaced_path = spaced_path.
Proof.
  apply (distinct_paths_distinct_commands explorer_host
           ["open_book.py"; spaced_path] ["other.py"; spaced_path; "more"]
           "C:\Windows" spaced_path spaced_path).
  - reflexivity.
  - reflexivity.
  - reflexivity.
  - reflexivity.
Defined.

(** ** The command line under quote-aware splitting *)

(** X7: when the executable path has no blank and no double quote and the
    path to reveal has no double quote, the command line splits into
    exactly two tokens, the executable and the selection instruction,
    whatever blanks the path holds. *)
Theorem command_line_two_tokens (fb p : string) :
  plain fb = true ->
  fb <> EmptyString ->
  quote_free p ->
  tokenize (command_line fb p) = [fb; launch_argument p].
Proof.
  intros Hfb Hne Hq. rewrite command_line_split. unfold tokenize at 1.
  rewrite (tokens_from_plain fb Hfb).
  change (EmptyString +:+ fb) with fb.
  change (" " +:+ launch_argument p) with (String " " (launch_argument p)).
  rewrite tokens_from_blank, (flush_nonempty fb Hne).
  rewrite (tokenize_launch_argument p Hq). reflexivity.
Qed.

Lemma command_line_two_tokens_witness :
  tokenize (command_line "C:\Windows\explorer.exe" spaced_path) =
  ["C:\Windows\explorer.exe"; launch_argument spaced_path].
Proof.
  apply (command_line_two_tokens "C:\Windows\explorer.exe" spaced_path).
  - reflexivity.
  - discriminate.
  - unfold quote_free. compute_done.
Defined.

(** X8: the executable path goes into the command line unquoted: when it
    holds a blank, the first token is only what stands before that blank,
    not the executable path. *)
Theorem blank_in_executable_splits (a b p : string) :
  plain a = true ->
  a <> EmptyString ->
  head (tokenize (command_line (a +:+ String " " b) p)) = Some a /\
  a <> a +:+ String " " b.
Proof.
  intros Ha Hne. split.
  - unfold command_line, tokenize. rewrite append_assoc.
    rewrite (tokens_from_plain a Ha).
    change (EmptyString +:+ a) with a.
    change (String " " b +:+ ?x) with (String " " (b +:+ x)).
    rewrite tokens_from_blank, (flush_nonempty a Hne). reflexivity.
  - intros H. rewrite <- (append_nil_r a) in H at 1.
    apply (inj (String.append a)) in H. discriminate H.
Qed.

Lemma blank_in_executable_splits_witness :
  head (tokenize (command_line ("C:\My" +:+ String " " "Windows\explorer.exe")
                    spaced_path)) = Some "C:\My".
Proof.
  refine (proj1 (blank_in_executable_splits "C:\My" "Windows\explorer.exe"
                   spaced_path _ _)).
  - reflexivity.
  - discriminate.
Defined.

(** X9: a double quote in the path ends the quoted region early: for a
    path made of a quote-free [a], a double quote, a blank and a plain
    [b], the selection instruction splits into two tokens, the
    instruction to select [a] and a second token made of [b] and the
    closing quote. *)
Theorem quote_then_blank_splits_argument (a b : string) :
  quote_free a ->
  plain b = true ->
  tokenize (launch_argument (a +:+ String dquote (String " " b))) =
  [launch_argument a; b +:+ String dquote EmptyString].
Proof.
  intros Ha Hb. unfold tokenize, launch_argument.
  rewrite append_assoc.
  change (String dquote (String " " b) +:+ ?x)
    with (String dquote (String " " (b +:+ x))).
  cbn -[tokens_from_quoted].
  change (is_dquote dquote) with true. cbn.
  rewrite (tokens_from_quoted a Ha). cbn.
  change (is_dquote dquote) with true. cbn.
  rewrite (tokens_from_plain b Hb). cbn.
  change (is_dquote dquote) with true. cbn.
  destruct b; reflexivity.
Qed.

Lemma quote_then_blank_splits_argument_witness :
  tokenize (launch_argument injecting_path) =
  [launch_argument "C:\a"; "/e,C:\b" +:+ String dquote EmptyString].
Proof.
  apply (quote_then_blank_splits_argument "C:\a" "/e,C:\b").
  - unfold quote_free. compute_done.
  - reflexivity.
Defined.
